(** * Route resampling and elevation attachment (src/main.py)

    A shallow embedding of [main.py]: the computational core
    ([get_utm_crs], [interpolate_points], [attach_elevation]) and the run
    around it ([get_route], [write_csv], [create_map], [main]).

    Modelling conventions.
    - Two models of the numbers.  In the first part a Python [float] is a
      rational number [Q] with exact arithmetic; it carries the statements
      that do not depend on a computed value: the order and layout of rows,
      what a function does not read, which failures precede any output, the
      zone arithmetic.  Module [IEEE] models [interpolate_points] and
      [attach_elevation] on binary64 floats, with rounding, [inf], [nan] and
      the errors of [math.floor], of the division and of the projection
      library; it carries the statements about counts, distances and
      nearest vertices.
    - A Python exception is a constructor of [exn]; a function that may
      raise returns a [result].
    - [pyproj], [shapely] and [scipy] are libraries the script imports.
      Their operations are Variables of a Section; what a statement relies
      on of their behaviour is a hypothesis of that statement.  In the
      exact model the nearest-neighbour query of [cKDTree] is an exhaustive
      scan.
    - Files written and lines printed are the trace of a run, which an
      exception cuts short.  The routing service is a Variable, a request
      being one that the service answers; failures of the network and of the
      file system, and the parsing of the command line, are outside the
      model. *)

From Stdlib Require Import String ZArith QArith Qround Lia Lqa List Bool Floats.

Set Warnings "-inexact-float".
Import ListNotations.

Open Scope Q_scope.

(** ** Python values and exceptions *)

Inductive exn : Type :=
| IndexError          (* list index out of range *)
| ValueError          (* raised by a library constructor on malformed data *)
| ZeroDivisionError   (* float division by zero *)
| OverflowError       (* an infinite float has no integer value *)
| CRSError.           (* no projection can be built for the request *)

Inductive result (A : Type) : Type :=
| Ok (a : A)
| Raise (e : exn).

Arguments Ok {A} a.
Arguments Raise {A} e.

Definition bind {A B : Type} (r : result A) (k : A -> result B) : result B :=
  match r with
  | Ok a => k a
  | Raise e => Raise e
  end.

Notation "x <- r ;; k" := (bind r (fun x => k))
  (at level 61, r at next level, right associativity).

(** [xs[i]] for a non-negative index. *)
Definition index {A : Type} (xs : list A) (i : nat) : result A :=
  match nth_error xs i with
  | Some x => Ok x
  | None => Raise IndexError
  end.

(** [a / b] on floats: Python raises on a zero divisor. *)
Definition py_div (a b : Q) : result Q :=
  if Qeq_bool b 0 then Raise ZeroDivisionError else Ok (a / b).

(** [a < b] on floats. *)
Definition Qlt_bool (a b : Q) : bool := negb (Qle_bool b a).

(** [a // b] on floats, for a non-zero divisor: the floor of the quotient,
    still a float. *)
Definition py_floordiv (a b : Q) : Q := inject_Z (Qfloor (a / b)).

(** [int(x)]: truncation towards zero. *)
Definition py_int (x : Q) : Z :=
  if Qle_bool 0 x then Qfloor x else Qceiling x.

(** [range(n)]: the integers [0 .. n-1], empty when [n <= 0]. *)
Definition range (n : Z) : list Z := map Z.of_nat (seq 0 (Z.to_nat n)).

(** ** Data model *)

(** A vertex of the route geometry: [(lon, lat, elev)]. *)
Definition vertex : Type := Q * Q * Q.

(** A resampled point: [(dist, lon, lat)]. *)
Definition point : Type := Q * Q * Q.

(** A row of the result: [(dist, lat, lon, elev)]. *)
Definition row : Type := Q * Q * Q * Q.

(** A coordinate reference system, identified by its EPSG code. *)
Inductive CRS : Type := EPSG (code : Z).

Definition CRS_from_epsg (code : Z) : CRS := EPSG code.

Definition lonlat (v : vertex) : Q * Q := let '(lon, lat, _) := v in (lon, lat).
Definition elev (v : vertex) : Q := let '(_, _, e) := v in e.

(** The GeoPoint domain of the data model. *)
Definition valid_lon (lon : Q) : Prop := -(180) <= lon /\ lon <= 180.
Definition valid_lat (lat : Q) : Prop := -(90) <= lat /\ lat <= 90.

(** ** get_utm_crs *)

(** [zone = int((lon + 180) // 6 + 1)] *)
Definition utm_zone (lon : Q) : Z := py_int (py_floordiv (lon + 180) 6 + 1).

Definition utm_epsg (lon lat : Q) : Z :=
  let zone := utm_zone lon in
  let south := Qlt_bool lat 0 in
  if south then (32700 + zone)%Z else (32600 + zone)%Z.

Definition get_utm_crs (lon lat : Q) : CRS := CRS_from_epsg (utm_epsg lon lat).

(** The codes of the sixty UTM zones of each hemisphere. *)
Definition is_utm_epsg (code : Z) : bool :=
  ((32601 <=? code) && (code <=? 32660) || (32701 <=? code) && (code <=? 32760))%Z.

(** The projection of a call: the one of its first vertex. *)
Definition route_crs (v0 : vertex) : CRS :=
  get_utm_crs (fst (lonlat v0)) (snd (lonlat v0)).

(** ** shapely: LineString *)

(** The constructor refuses a single coordinate tuple. *)
Definition LineString (pts : list (Q * Q)) : result (list (Q * Q)) :=
  match pts with
  | [_] => Raise ValueError
  | _ => Ok pts
  end.

Section Resampler.

(** [Transformer.from_crs(src, dst, always_xy=True).transform] *)
Variable transform : CRS -> CRS -> Q * Q -> Q * Q.
(** [line.length] *)
Variable line_length : list (Q * Q) -> Q.
(** [line.interpolate(dist)] *)
Variable line_interpolate : list (Q * Q) -> Q -> Q * Q.

(** The body of the sampling loop, for the index [i]. *)
Definition sample (to_wgs : Q * Q -> Q * Q) (line : list (Q * Q))
    (interval_m : Q) (i : Z) : point :=
  let dist := inject_Z i * interval_m in
  let p_utm := line_interpolate line dist in
  let '(lon, lat) := to_wgs p_utm in
  (dist, lon, lat).

Definition interpolate_points (coords3 : list vertex) (interval_m : Q)
    : result (list point) :=
  c0 <- index coords3 0 ;;
  let '(first_lon, first_lat, _) := c0 in
  let utm_crs := get_utm_crs first_lon first_lat in
  let to_utm := transform (EPSG 4326) utm_crs in
  let to_wgs := transform utm_crs (EPSG 4326) in
  line <- LineString (map (fun v => to_utm (lonlat v)) coords3) ;;
  let total_len := line_length line in
  q <- py_div total_len interval_m ;;
  let num_points := (Qfloor q + 1)%Z in
  Ok (fold_left (fun pts i => pts ++ [sample to_wgs line interval_m i])
                (range num_points) []).

(** The projected curve of a geometry and its length [L]. *)
Definition projected (coords3 : list vertex) : list (Q * Q) :=
  match coords3 with
  | [] => []
  | (first_lon, first_lat, _) :: _ =>
      map (fun v => transform (EPSG 4326) (get_utm_crs first_lon first_lat) (lonlat v))
          coords3
  end.

Definition arc_length (coords3 : list vertex) : Q := line_length (projected coords3).

End Resampler.

(** The first vertex projected and brought back: what the route start
    becomes after the forward and the inverse transform of one call. *)
Definition roundtrip (transform : CRS -> CRS -> Q * Q -> Q * Q) (v0 : vertex) : Q * Q :=
  let utm_crs := route_crs v0 in
  transform utm_crs (EPSG 4326) (transform (EPSG 4326) utm_crs (lonlat v0)).

Definition dist_of (p : point) : Q := let '(dist, _, _) := p in dist.
Definition lonlat_of (p : point) : Q * Q := let '(_, lon, lat) := p in (lon, lat).

(** ** scipy: cKDTree *)

(** Squared Euclidean distance on raw coordinates; the Euclidean distance
    is its square root, so both order pairs of points alike. *)
Definition sqdist (a b : Q * Q) : Q :=
  (fst a - fst b) * (fst a - fst b) + (snd a - snd b) * (snd a - snd b).

(** [cKDTree(data)]: the data must be a two-dimensional array, which the
    array built from an empty list is not. *)
Definition cKDTree (data : list (Q * Q)) : result (list (Q * Q)) :=
  match data with
  | [] => Raise ValueError
  | _ => Ok data
  end.

(** Scan of [data], whose first element has index [i]; [best] is the index
    of the nearest point so far, at squared distance [bestd]. *)
Fixpoint nearest_from (q : Q * Q) (best : nat) (bestd : Q) (i : nat)
    (data : list (Q * Q)) : nat :=
  match data with
  | [] => best
  | p :: rest =>
      if Qlt_bool (sqdist p q) bestd
      then nearest_from q i (sqdist p q) (S i) rest
      else nearest_from q best bestd (S i) rest
  end.

(** [tree.query(q)]: the index of the nearest data point.  Under an exact
    tie the scan keeps the lowest index. *)
Definition query (tree : list (Q * Q)) (q : Q * Q) : nat :=
  match tree with
  | [] => 0%nat
  | p :: rest => nearest_from q 0 (sqdist p q) 1 rest
  end.

(** ** attach_elevation *)

(** One turn of the loop: [out.append((dist, lat, lon, float(elevs[idx])))]. *)
Definition attach_one (tree : list (Q * Q)) (elevs : list Q)
    (acc : result (list row)) (pt : point) : result (list row) :=
  out <- acc ;;
  let '(dist, lon, lat) := pt in
  let idx := query tree (lon, lat) in
  e <- index elevs idx ;;
  Ok (out ++ [(dist, lat, lon, e)]).

Definition attach_elevation (points : list point) (coords3 : list vertex)
    : result (list row) :=
  let base_xy := map lonlat coords3 in
  let elevs := map elev coords3 in
  tree <- cKDTree base_xy ;;
  fold_left (attach_one tree elevs) points (Ok []).

(** What the loop computes for one point when the index is not empty. *)
Definition nearest_elev (coords3 : list vertex) (q : Q * Q) : Q :=
  nth (query (map lonlat coords3) q) (map elev coords3) 0.

Definition attach_row (coords3 : list vertex) (pt : point) : row :=
  let '(dist, lon, lat) := pt in (dist, lat, lon, nearest_elev coords3 (lon, lat)).

(** The first and the last component of a row. *)
Definition distance_m (r : row) : Q := let '(a, _, _, _) := r in a.
Definition elevation_m (r : row) : Q := let '(_, _, _, d) := r in d.

(** ** write_csv: the layout of a persisted row *)

Definition csv_header : list string :=
  ["distance_m"; "latitude"; "longitude"; "elevation_m"]%string.

(** [writer.writerows(rows)] writes the components of each tuple in order. *)
Definition csv_cells (r : row) : list Q :=
  let '(a, b, c, d) := r in [a; b; c; d].

Fixpoint column_of (name : string) (header : list string) : option nat :=
  match header with
  | [] => None
  | h :: rest =>
      if String.eqb h name then Some 0%nat
      else option_map S (column_of name rest)
  end.

(** The cell of row [r] under the column called [name]. *)
Definition field (name : string) (r : row) : option Q :=
  match column_of name csv_header with
  | Some k => nth_error (csv_cells r) k
  | None => None
  end.

(** ** A flat reference instance of the libraries

    An executable instance of the three library operations, on which the
    statements below are run: a local scaling of degrees to metres for the
    projection, and a polyline measured with a square root of twenty
    binary digits. *)

Module Flat.

Definition metres_per_degree : Q := 111000.

Definition is_wgs (c : CRS) : bool := let 'EPSG code := c in (code =? 4326)%Z.

Definition transform (src dst : CRS) (p : Q * Q) : Q * Q :=
  match is_wgs src, is_wgs dst with
  | true, false => (Qred (fst p * metres_per_degree), Qred (snd p * metres_per_degree))
  | false, true => (Qred (fst p / metres_per_degree), Qred (snd p / metres_per_degree))
  | _, _ => p
  end.

Definition sqrt (x : Q) : Q :=
  Qred (Z.sqrt (Qnum x * Zpos (Qden x) * 2 ^ 40) # (Qden x * 2 ^ 20)).

Definition segment_length (p q : Q * Q) : Q := Qred (sqrt (sqdist p q)).

Fixpoint length_from (p : Q * Q) (rest : list (Q * Q)) : Q :=
  match rest with
  | [] => 0
  | q :: rest' => Qred (segment_length p q + length_from q rest')
  end.

Definition line_length (line : list (Q * Q)) : Q :=
  match line with
  | [] => 0
  | p :: rest => length_from p rest
  end.

Fixpoint interpolate_from (p : Q * Q) (rest : list (Q * Q)) (d : Q) : Q * Q :=
  match rest with
  | [] => p
  | q :: rest' =>
      let s := segment_length p q in
      if Qle_bool d s
      then if Qeq_bool s 0 then p
           else (Qred (fst p + d / s * (fst q - fst p)),
                 Qred (snd p + d / s * (snd q - snd p)))
      else interpolate_from q rest' (d - s)
  end.

Definition line_interpolate (line : list (Q * Q)) (d : Q) : Q * Q :=
  match line with
  | [] => (0, 0)
  | p :: rest => if Qle_bool d 0 then p else interpolate_from p rest d
  end.

Definition interpolate_points := interpolate_points transform line_length line_interpolate.

End Flat.

(** ** The configuration: WAYPOINTS, INTERVAL_M *)

(** [(name, lat, lon)] in route order. *)
Definition WAYPOINTS : list (string * Q * Q) :=
  [ ("Start"%string, -12.463056, 130.837806);
    ("Driver_change"%string, -13.630916, 131.630864);
    ("Cp1"%string, -14.48134, 132.325095);
    ("Cp2"%string, -16.679795, 133.412181);
    ("Cp3"%string, -19.657727, 134.188373);
    ("Cp4"%string, -21.530979, 133.888904);
    ("Cp5"%string, -23.708827, 133.875458);
    ("Cp6"%string, -25.19932, 133.198568);
    ("Cp7"%string, -29.017583, 134.754621);
    ("Cp8"%string, -30.970423, 135.750484);
    ("Cp9"%string, -32.494147, 137.771563);
    ("Finish"%string, -34.931087, 138.620964) ].

Definition INTERVAL_M : Q := 100.

(** ** Effects: files written and lines printed

    A run leaves a trace of the effects it performed, in order.  An
    exception ends the run; the trace up to it remains. *)

(** A value handed to the CSV writer. *)
Inductive cell : Type :=
| Text (s : string)
| Number (x : Q).

(** A folium layer added to a map. *)
Inductive layer : Type :=
| Marker (location : Q * Q) (popup : string)
| PolyLine (locations : list (Q * Q)) (color : string) (weight : Z) (opacity : Q).

(** [folium.Map]: its centre, its zoom and the layers added so far. *)
Record folium_Map : Type := {
  location : Q * Q;
  zoom_start : Z;
  layers : list layer
}.

Inductive effect : Type :=
| WriteCsv (path : string) (records : list (list cell))
| SaveMap (path : string) (m : folium_Map)
| Print (line : string).

Definition io (A : Type) : Type := (list effect * result A)%type.

Definition lift {A : Type} (r : result A) : io A := ([], r).

Definition emit (e : effect) : io unit := ([e], Ok tt).

Definition io_bind {A B : Type} (m : io A) (k : A -> io B) : io B :=
  match m with
  | (t, Ok a) => let '(t', r) := k a in (t ++ t', r)
  | (t, Raise e) => (t, Raise e)
  end.

Notation "x <~ m ;; k" := (io_bind m (fun x => k))
  (at level 61, m at next level, right associativity).
Notation "m ;;; k" := (io_bind m (fun _ => k))
  (at level 61, right associativity).

(** Truth value of an optional string: [None] and the empty string are
    false. *)
Definition truthy (s : option string) : bool :=
  match s with
  | Some s' => negb (String.eqb s' "")
  | None => false
  end.

(** ** get_route *)

(** The part of the GeoJSON answer that [get_route] reads:
    [res["features"][i]["geometry"]["coordinates"]]. *)
Record Geometry : Type := { coordinates : list vertex }.
Record Feature : Type := { geometry : Geometry }.
Record FeatureCollection : Type := { features : list Feature }.

(** A client answers a directions request for a list of [(lon, lat)]. *)
Definition Client : Type := list (Q * Q) -> FeatureCollection.

Definition get_route (coords : list (Q * Q)) (client : Client) : result (list vertex) :=
  let res := client coords in
  f <- index (features res) 0 ;;
  Ok (coordinates (geometry f)).

(** ** write_csv *)

(** [r[1]] and [r[2]] of a row. *)
Definition latitude (r : row) : Q := let '(_, b, _, _) := r in b.
Definition longitude (r : row) : Q := let '(_, _, c, _) := r in c.

Definition csv_records (rows : list row) : list (list cell) :=
  map Text csv_header :: map (fun r => map Number (csv_cells r)) rows.

(** The cell of a record under the column called [name]. *)
Definition record_field (name : string) (rec : list cell) : option cell :=
  match column_of name csv_header with
  | Some k => nth_error rec k
  | None => None
  end.

Section Pipeline.

Variable transform : CRS -> CRS -> Q * Q -> Q * Q.
Variable line_length : list (Q * Q) -> Q.
Variable line_interpolate : list (Q * Q) -> Q -> Q * Q.
(** [openrouteservice.Client(key=api_key).directions], on a request that
    is answered. *)
Variable directions : string -> Client.
(** [str(Path(p))] *)
Variable path_str : string -> string.

Definition build_client (api_key : string) : Client := directions api_key.

Definition write_csv (rows : list row) (out_path : string) : io unit :=
  emit (WriteCsv out_path (csv_records rows)) ;;;
  emit (Print ("CSV written to " ++ path_str out_path)%string).

Definition add_to (l : layer) (m : folium_Map) : folium_Map :=
  {| location := location m; zoom_start := zoom_start m; layers := layers m ++ [l] |}.

Definition create_map (rows : list row) (out_html : string) : io unit :=
  mid <~ lift (index rows (length rows / 2)) ;;
  let m := {| location := (latitude mid, longitude mid); zoom_start := 5; layers := [] |} in
  let m := fold_left (fun m w => let '(name, lat, lon) := w in add_to (Marker (lat, lon) name) m)
                     WAYPOINTS m in
  let m := add_to (PolyLine (map (fun r => (latitude r, longitude r)) rows)
                            "blue" 3 0.7) m in
  emit (SaveMap out_html m) ;;;
  emit (Print ("Folium map saved to " ++ out_html)%string).

(** The parsed command line. *)
Record Args : Type := {
  api_key : option string;
  out : string;
  html : option string;
  interval : Q
}.

Definition main (args : Args) : io unit :=
  if negb (truthy (api_key args)) then lift (Raise ValueError)
  else
    let client := build_client (match api_key args with Some k => k | None => "" end) in
    let coords := map (fun w => let '(_, lat, lon) := w in (lon, lat)) WAYPOINTS in
    coords3 <~ lift (get_route coords client) ;;
    points <~ lift (interpolate_points transform line_length line_interpolate
                      coords3 (interval args)) ;;
    rows <~ lift (attach_elevation points coords3) ;;
    write_csv rows (out args) ;;;
    match html args with
    | Some h => if truthy (Some h) then create_map rows h else lift (Ok tt)
    | None => lift (Ok tt)
    end.

End Pipeline.

(** The request that [main] sends: the way-points as [(lon, lat)]. *)
Definition request_coords : list (Q * Q) :=
  map (fun w : string * Q * Q => let '(_, lat, lon) := w in (lon, lat)) WAYPOINTS.

(** The marker that [create_map] adds for a way-point. *)
Definition waypoint_marker (w : string * Q * Q) : layer :=
  let '(name, lat, lon) := w in Marker (lat, lon) name.

(** The flat instance of the whole run, with a service that answers every
    request with the route [coords3]. *)
Definition answer (coords3 : list vertex) : string -> Client :=
  fun _ _ => {| features := [ {| geometry := {| coordinates := coords3 |} |} ] |}.

Definition flat_main (coords3 : list vertex) : Args -> io unit :=
  main Flat.transform Flat.line_length Flat.line_interpolate (answer coords3) (fun p => p).

(** * The resampler and the attacher on binary64 floats

    The same two functions with Python's numbers as they are: [float] is
    IEEE binary64 with its rounding, [inf] and [nan]; [math.floor] and the
    projection library can raise.  The libraries are Variables; the part of
    their behaviour a statement relies on is a hypothesis of that
    statement. *)

Module IEEE.

(** A vertex [(lon, lat, elev)], a resampled point [(dist, lon, lat)] and a
    row [(dist, lat, lon, elev)]. *)
Definition vertex : Type := (float * float * float)%type.
Definition point : Type := (float * float * float)%type.
Definition row : Type := (float * float * float * float)%type.

Definition lonlat (v : vertex) : float * float := let '(lon, lat, _) := v in (lon, lat).
Definition elev (v : vertex) : float := let '(_, _, e) := v in e.

(** The exact value of a finite float. *)
Definition Q_of_float (x : float) : Q :=
  match Prim2SF x with
  | S754_finite s m e => inject_Z (cond_Zopp s (Zpos m)) * 2 ^ e
  | _ => 0
  end.

(** [x == 0.0]: true of both zeros, false of [nan]. *)
Definition is_zero (x : float) : bool := (x =? 0)%float.

(** Neither an infinity nor [nan]. *)
Definition is_finite (x : float) : bool :=
  match Prim2SF x with
  | S754_zero _ | S754_finite _ _ _ => true
  | _ => false
  end.

Definition dist_of (p : point) : float := let '(dist, _, _) := p in dist.

(** [float(i)] for an integer within the range of binary64. *)
Definition float_of_int (i : Z) : float :=
  SF2Prim (binary_normalize prec emax i 0 false).

(** [math.floor(x)]: [ValueError] on [nan], [OverflowError] on an
    infinity. *)
Definition math_floor (x : float) : result Z :=
  match Prim2SF x with
  | S754_nan => Raise ValueError
  | S754_infinity _ => Raise OverflowError
  | S754_zero _ => Ok 0%Z
  | S754_finite s m e => Ok (Z.shiftl (cond_Zopp s (Zpos m)) e)
  end.

(** [int(x)]: the same errors, truncation towards zero. *)
Definition py_int (x : float) : result Z :=
  match Prim2SF x with
  | S754_nan => Raise ValueError
  | S754_infinity _ => Raise OverflowError
  | S754_zero _ => Ok 0%Z
  | S754_finite s m e => Ok (cond_Zopp s (Z.shiftl (Zpos m) e))
  end.

(** [a / b]: Python raises on a zero divisor; otherwise the rounded
    quotient. *)
Definition py_div (a b : float) : result float :=
  if is_zero b then Raise ZeroDivisionError else Ok (a / b)%float.

(** [a // b] for a non-zero finite [b]: the floor of the exact quotient of
    the two floats, as a float; [nan] when [a] is not finite. *)
Definition py_floordiv (a b : float) : float :=
  match Prim2SF a with
  | S754_zero _ | S754_finite _ _ _ =>
      float_of_int (Qfloor (Q_of_float a / Q_of_float b))
  | _ => nan
  end.

(** [zone = int((lon + 180) // 6 + 1)], [south = lat < 0]. *)
Definition utm_epsg (lon lat : float) : result Z :=
  zone <- py_int (py_floordiv (lon + 180) 6 + 1)%float ;;
  let south := (lat <? 0)%float in
  Ok (if south then 32700 + zone else 32600 + zone)%Z.

(** [math.floor(total_len / interval_m) + 1] *)
Definition num_points (total_len interval_m : float) : result Z :=
  q <- py_div total_len interval_m ;;
  n <- math_floor q ;;
  Ok (n + 1)%Z.

Section Libraries.

(** [CRS.from_epsg]: raises for a code that names no projection. *)
Variable CRS_from_epsg : Z -> result CRS.
(** [Transformer.from_crs(src, dst, always_xy=True).transform] *)
Variable Transformer_from_crs : CRS -> CRS -> result (float * float -> float * float).
(** The curves of shapely, their constructor and measurements. *)
Variable line : Type.
Variable LineString : list (float * float) -> result line.
Variable line_length : line -> float.
Variable line_interpolate : line -> float -> float * float.
(** [cKDTree(data).query(q)]: the index of the neighbour found. *)
Variable query : list (float * float) -> float * float -> nat.

Definition get_utm_crs (lon lat : float) : result CRS :=
  epsg <- utm_epsg lon lat ;;
  CRS_from_epsg epsg.

(** The body of the sampling loop, for the index [i]. *)
Definition sample (to_wgs : float * float -> float * float) (ln : line)
    (interval_m : float) (i : Z) : point :=
  let dist := (float_of_int i * interval_m)%float in
  let p_utm := line_interpolate ln dist in
  let '(lon, lat) := to_wgs p_utm in
  (dist, lon, lat).

Definition interpolate_points (coords3 : list vertex) (interval_m : float)
    : result (list point) :=
  c0 <- index coords3 0 ;;
  let '(first_lon, first_lat, _) := c0 in
  utm_crs <- get_utm_crs first_lon first_lat ;;
  to_utm <- Transformer_from_crs (EPSG 4326) utm_crs ;;
  to_wgs <- Transformer_from_crs utm_crs (EPSG 4326) ;;
  ln <- LineString (map (fun v => to_utm (lonlat v)) coords3) ;;
  let total_len := line_length ln in
  n <- num_points total_len interval_m ;;
  Ok (fold_left (fun pts i => pts ++ [sample to_wgs ln interval_m i])
                (range n) []).

(** The steps of a call before the division went through: the route
    starts with [v0], the projection of [v0] and both transforms were built,
    and the curve [ln] through the projected vertices was accepted. *)
Definition prepared (coords3 : list vertex) (v0 : vertex)
    (to_utm to_wgs : float * float -> float * float) (ln : line) : Prop :=
  exists rest crs,
    coords3 = v0 :: rest /\
    get_utm_crs (fst (lonlat v0)) (snd (lonlat v0)) = Ok crs /\
    Transformer_from_crs (EPSG 4326) crs = Ok to_utm /\
    Transformer_from_crs crs (EPSG 4326) = Ok to_wgs /\
    LineString (map (fun v => to_utm (lonlat v)) coords3) = Ok ln.

(** One turn of the loop of [attach_elevation]. *)
Definition attach_one (tree : list (float * float)) (elevs : list float)
    (acc : result (list row)) (pt : point) : result (list row) :=
  out <- acc ;;
  let '(dist, lon, lat) := pt in
  let idx := query tree (lon, lat) in
  e <- index elevs idx ;;
  Ok (out ++ [(dist, lat, lon, e)]).

Definition attach_elevation (points : list point) (coords3 : list vertex)
    : result (list row) :=
  let base_xy := map lonlat coords3 in
  let elevs := map elev coords3 in
  tree <- (match base_xy with [] => Raise ValueError | _ => Ok base_xy end) ;;
  fold_left (attach_one tree elevs) points (Ok []).

End Libraries.

(** Squared Euclidean distance as the floats compute it. *)
Definition sqdist (a b : float * float) : float :=
  ((fst a - fst b) * (fst a - fst b) + (snd a - snd b) * (snd a - snd b))%float.


(** A nearest-neighbour search by exhaustive scan on float distances,
    keeping the first of the nearest. *)
Fixpoint nearest_from (q : float * float) (best : nat) (bestd : float) (i : nat)
    (data : list (float * float)) : nat :=
  match data with
  | [] => best
  | p :: rest =>
      if (sqdist p q <? bestd)%float
      then nearest_from q i (sqdist p q) (S i) rest
      else nearest_from q best bestd (S i) rest
  end.


(** Stand-ins for the projection and curve libraries, on which statements
    are run: every code names a projection, the transforms leave a point as
    it is, a curve is its list of vertices, refused when it has one vertex
    only, and its length is [len] whatever the vertices; the point at a
    distance is the first vertex. *)
Definition stub_CRS_from_epsg (code : Z) : result CRS := Ok (EPSG code).
Definition stub_Transformer (src dst : CRS) : result (float * float -> float * float) :=
  Ok (fun p => p).
Definition stub_LineString (pts : list (float * float)) : result (list (float * float)) :=
  match pts with
  | [_] => Raise ValueError
  | _ => Ok pts
  end.
Definition stub_interpolate (ln : list (float * float)) (d : float) : float * float :=
  hd (0, 0)%float ln.

Definition run_interpolate (len : float) : list vertex -> float -> result (list point) :=
  interpolate_points stub_CRS_from_epsg stub_Transformer (list (float * float))
    stub_LineString (fun _ => len) stub_interpolate.



(** The route of the design's scenario; the libraries measure its length
    as 110.68275598743514 m. *)
Definition scenario : list vertex := [(0, 0, 10); (0, 0.001, 20)]%float.
Definition scenario_length : float := 110.68275598743514%float.

End IEEE.

(** A command line with a key, both outputs and the interval [iv]. *)
Definition demo_args (iv : Q) : Args :=
  {| api_key := Some "key"%string; out := "route.csv"%string;
     html := Some "route.html"%string; interval := iv |}.

(** The two-vertex geometry of the design's scenario, about 111 m long. *)
Definition scenario : list vertex := [(0, 0, 10); (0, 1 # 1000, 20)].

(** A route of a single vertex. *)
Definition single_vertex : list vertex := [(0, 0, 10)].

(** * Properties *)

(** ** Helper lemmas: loops and ranges *)

Lemma fold_left_append {A B : Type} (f : A -> B) (l : list A) (acc : list B) :
  fold_left (fun out x => out ++ [f x]) l acc = acc ++ map f l.
Proof.
  revert acc; induction l as [|x l IH]; intros acc; simpl.
  - now rewrite app_nil_r.
  - rewrite IH, <- app_assoc. reflexivity.
Qed.



(** ** Helper lemmas: floors of quotients *)

Lemma Qfloor_div_nonneg (a b : Q) : 0 <= a -> 0 < b -> (0 <= Qfloor (a / b))%Z.
Proof.
  intros Ha Hb.
  change 0%Z with (Qfloor 0). apply Qfloor_resp_le.
  apply Qle_shift_div_l; [assumption|]. lra.
Qed.

Lemma py_div_nonzero (a b : Q) : ~ b == 0 -> py_div a b = Ok (a / b).
Proof.
  intros Hb. unfold py_div.
  destruct (Qeq_bool b 0) eqn:E; [|reflexivity].
  apply Qeq_bool_iff in E. contradiction.
Qed.

Lemma py_div_zero (a b : Q) : b == 0 -> py_div a b = Raise ZeroDivisionError.
Proof.
  intros Hb. unfold py_div.
  apply Qeq_bool_iff in Hb. now rewrite Hb.
Qed.

(** ** The resampler *)

Section ResamplerFacts.

Variable transform : CRS -> CRS -> Q * Q -> Q * Q.
Variable line_length : list (Q * Q) -> Q.
Variable line_interpolate : list (Q * Q) -> Q -> Q * Q.

Local Abbreviation resample := (interpolate_points transform line_length line_interpolate).

Lemma range_pos (n : Z) : (0 <= n)%Z -> range (n + 1) = 0%Z :: map Z.succ (range n).
Proof.
  intros Hn. unfold range.
  replace (Z.to_nat (n + 1)) with (S (Z.to_nat n)) by lia.
  simpl. f_equal.
  rewrite <- seq_shift, !map_map.
  apply map_ext; intros; lia.
Qed.

(** C9: [interpolate_points] does not read the elevations: two geometries
    with the same (lon, lat) at every vertex give the same result for the
    same interval. *)
Theorem interpolate_points_ignores_elevation
    (coordsA coordsB : list vertex) (interval_m : Q) :
  map lonlat coordsA = map lonlat coordsB ->
  resample coordsA interval_m = resample coordsB interval_m.
Proof.
  intros H.
  assert (Hmap : forall f : Q * Q -> Q * Q,
             map (fun v => f (lonlat v)) coordsA = map (fun v => f (lonlat v)) coordsB).
  { intros f. rewrite <- (map_map lonlat f coordsA), <- (map_map lonlat f coordsB).
    now rewrite H. }
  destruct coordsA as [|[[lonA latA] eA] A], coordsB as [|[[lonB latB] eB] B];
    try discriminate; [reflexivity|].
  injection H as Hlon Hlat _. subst lonB latB.
  unfold interpolate_points. cbn [index nth_error bind].
  now rewrite Hmap.
Qed.

End ResamplerFacts.

(** ** The projection selector *)

Lemma py_int_integer (z : Z) : py_int (inject_Z z + 1) = (z + 1)%Z.
Proof.
  assert (E : inject_Z z + 1 == inject_Z (z + 1))
    by (rewrite inject_Z_plus; reflexivity).
  unfold py_int.
  destruct (Qle_bool 0 (inject_Z z + 1)).
  - rewrite (Qfloor_comp _ _ E). apply Qfloor_Z.
  - rewrite (Qceiling_comp _ _ E). apply Qceiling_Z.
Qed.

(** The zone is the one of the design: [floor((lon + 180) / 6) + 1]. *)
Lemma utm_zone_floor (lon : Q) : utm_zone lon = (Qfloor ((lon + 180) / 6) + 1)%Z.
Proof. unfold utm_zone, py_floordiv. apply py_int_integer. Qed.

(** West of the antimeridian the zone is one of the sixty UTM zones. *)
Lemma utm_zone_range (lon : Q) :
  -(180) <= lon -> lon < 180 -> (1 <= utm_zone lon <= 60)%Z.
Proof.
  intros Hlo Hhi. rewrite utm_zone_floor.
  assert (H0 : 0 <= (lon + 180) / 6) by (apply Qle_shift_div_l; lra).
  assert (H1 : (lon + 180) / 6 < 60) by (apply Qlt_shift_div_r; lra).
  apply Qfloor_resp_le in H0. change (Qfloor 0) with 0%Z in H0.
  assert (H2 : inject_Z (Qfloor ((lon + 180) / 6)) < inject_Z 60)
    by (apply Qle_lt_trans with ((lon + 180) / 6); [apply Qfloor_le|assumption]).
  rewrite <- Zlt_Qlt in H2. lia.
Qed.

Lemma utm_epsg_hemisphere (lon lat : Q) :
  utm_epsg lon lat
  = if Qlt_bool lat 0 then (32700 + utm_zone lon)%Z else (32600 + utm_zone lon)%Z.
Proof. reflexivity. Qed.

Lemma Qlt_bool_iff (a b : Q) : Qlt_bool a b = true <-> a < b.
Proof.
  unfold Qlt_bool. rewrite negb_true_iff.
  destruct (Qle_bool b a) eqn:E.
  - apply Qle_bool_iff in E. split; [discriminate|]. intros H. lra.
  - split; [intros _|reflexivity].
    apply Qnot_le_lt. intros H. apply Qle_bool_iff in H. congruence.
Qed.

(** On the whole domain except the antimeridian the selector returns a UTM
    code, [32700 + zone] south of the equator and [32600 + zone] elsewhere. *)
Lemma get_utm_crs_utm (lon lat : Q) :
  -(180) <= lon -> lon < 180 ->
  let zone := (Qfloor ((lon + 180) / 6) + 1)%Z in
  (1 <= zone <= 60)%Z /\
  (lat < 0 -> get_utm_crs lon lat = EPSG (32700 + zone)) /\
  (~ lat < 0 -> get_utm_crs lon lat = EPSG (32600 + zone)) /\
  (forall code, get_utm_crs lon lat = EPSG code -> is_utm_epsg code = true).
Proof.
  intros Hlo Hhi zone.
  pose proof (utm_zone_range lon Hlo Hhi) as Hz.
  pose proof (utm_zone_floor lon) as Hf. fold zone in Hf.
  rewrite Hf in Hz. clearbody zone.
  unfold get_utm_crs, CRS_from_epsg. rewrite utm_epsg_hemisphere, Hf.
  split; [assumption|].
  destruct (Qlt_bool lat 0) eqn:E.
  - apply Qlt_bool_iff in E.
    split; [reflexivity|]. split; [contradiction|].
    intros code Hc.
    assert (Hcode : code = (32700 + zone)%Z) by congruence.
    unfold is_utm_epsg.
    apply orb_true_iff; right. apply andb_true_iff; split; apply Z.leb_le; lia.
  - assert (Hn : ~ lat < 0) by (rewrite <- Qlt_bool_iff; congruence).
    split; [contradiction|]. split; [reflexivity|].
    intros code Hc.
    assert (Hcode : code = (32600 + zone)%Z) by congruence.
    unfold is_utm_epsg.
    apply orb_true_iff; left. apply andb_true_iff; split; apply Z.leb_le; lia.
Qed.

(** C3, at the antimeridian: longitude 180 is in the valid domain, and
    there the selector computes zone 61 and returns code 32661 (32761 in the
    south), which is none of the sixty UTM zones. *)
Theorem get_utm_crs_antimeridian :
  valid_lon 180 /\ valid_lat 0 /\ valid_lat (-(1)) /\
  utm_zone 180 = 61%Z /\
  get_utm_crs 180 0 = EPSG 32661 /\
  get_utm_crs 180 (-(1)) = EPSG 32761 /\
  is_utm_epsg 32661 = false /\ is_utm_epsg 32761 = false.
Proof.
  unfold valid_lon, valid_lat.
  repeat match goal with |- _ /\ _ => split end;
    try reflexivity; unfold Qle; simpl; lia.
Qed.

(** ** The elevation attacher *)

(** The scan returns the index of a point of least squared distance among
    the candidate it starts from and the data it visits. *)
Lemma nearest_from_spec (q : Q * Q) (data : list (Q * Q)) :
  forall (best : nat) (bestd : Q) (i : nat),
  exists dr,
    dr <= bestd /\
    (forall p, In p data -> dr <= sqdist p q) /\
    ((nearest_from q best bestd i data = best /\ dr = bestd) \/
     (exists k p,
         nearest_from q best bestd i data = (i + k)%nat /\
         nth_error data k = Some p /\ dr = sqdist p q)).
Proof.
  induction data as [|p rest IH]; intros best bestd i; simpl.
  - exists bestd. split; [lra|]. split; [intros ? []|]. now left.
  - destruct (Qlt_bool (sqdist p q) bestd) eqn:E.
    + apply Qlt_bool_iff in E.
      destruct (IH i (sqdist p q) (S i)) as [dr [H1 [H2 H3]]].
      exists dr. split; [lra|]. split.
      * intros p' [<-|Hin]; [assumption|now apply H2].
      * right. destruct H3 as [[Hr Hd]|[k [p' [Hr [Hn Hd]]]]].
        -- exists 0%nat, p. rewrite Hr, Nat.add_0_r. now repeat split.
        -- exists (S k), p'. rewrite Hr. split; [lia|]. now split.
    + assert (Hge : bestd <= sqdist p q).
      { apply Qnot_lt_le. intros H. apply Qlt_bool_iff in H. congruence. }
      destruct (IH best bestd (S i)) as [dr [H1 [H2 H3]]].
      exists dr. split; [assumption|]. split.
      * intros p' [<-|Hin]; [lra|now apply H2].
      * destruct H3 as [[Hr Hd]|[k [p' [Hr [Hn Hd]]]]].
        -- now left.
        -- right. exists (S k), p'. rewrite Hr. split; [lia|]. now split.
Qed.

(** [query] returns the index of a nearest point of a non-empty index. *)
Lemma query_nearest (tree : list (Q * Q)) (q : Q * Q) :
  tree <> [] ->
  exists p,
    nth_error tree (query tree q) = Some p /\
    forall p', In p' tree -> sqdist p q <= sqdist p' q.
Proof.
  destruct tree as [|p0 rest]; [congruence|intros _].
  unfold query.
  destruct (nearest_from_spec q rest 0%nat (sqdist p0 q) 1%nat)
    as [dr [H1 [H2 [[Hr Hd]|[k [p [Hr [Hn Hd]]]]]]]]; rewrite Hr.
  - exists p0. split; [reflexivity|].
    intros p' [<-|Hin]; [lra|]. rewrite <- Hd. now apply H2.
  - exists p. split; [assumption|].
    intros p' [<-|Hin]; rewrite <- Hd; [assumption|now apply H2].
Qed.

(** The vertex behind the index that [query] returns. *)
Lemma nearest_vertex (coords3 : list vertex) (q : Q * Q) :
  coords3 <> [] ->
  exists v,
    nth_error coords3 (query (map lonlat coords3) q) = Some v /\
    nearest_elev coords3 q = elev v /\
    forall w, In w coords3 -> sqdist (lonlat v) q <= sqdist (lonlat w) q.
Proof.
  intros Hne.
  destruct (query_nearest (map lonlat coords3) q) as [p [Hp Hmin]].
  { destruct coords3; [congruence|discriminate]. }
  rewrite nth_error_map in Hp.
  destruct (nth_error coords3 (query (map lonlat coords3) q)) as [v|] eqn:Ev;
    [|discriminate].
  injection Hp as <-.
  exists v. split; [reflexivity|]. split.
  - unfold nearest_elev. apply nth_error_nth.
    now rewrite nth_error_map, Ev.
  - intros w Hw. apply Hmin. now apply in_map.
Qed.

Lemma attach_loop (coords3 : list vertex) (points : list point) :
  coords3 <> [] ->
  forall acc,
    fold_left (attach_one (map lonlat coords3) (map elev coords3)) points (Ok acc)
    = Ok (acc ++ map (attach_row coords3) points).
Proof.
  intros Hne. induction points as [|[[dist lon] lat] points IH]; intros acc; simpl.
  - now rewrite app_nil_r.
  - destruct (nearest_vertex coords3 (lon, lat) Hne) as [v [Hv [He _]]].
    unfold index. rewrite nth_error_map, Hv. simpl.
    rewrite IH, <- app_assoc. simpl. now rewrite He.
Qed.

(** On a non-empty geometry the call returns one row per point. *)
Lemma attach_elevation_unfold (points : list point) (coords3 : list vertex) :
  coords3 <> [] ->
  attach_elevation points coords3 = Ok (map (attach_row coords3) points).
Proof.
  intros Hne. unfold attach_elevation.
  destruct coords3 as [|v0 rest] eqn:E; [congruence|].
  rewrite <- E in *. assert (Hne' : coords3 <> []) by congruence.
  replace (cKDTree (map lonlat coords3)) with (Ok (map lonlat coords3))
    by (rewrite E; reflexivity).
  simpl bind. now rewrite attach_loop.
Qed.

(** C8: [attach_elevation] returns one row for each resampled point, in
    the order of the points, and the components of a row are, in order,
    distance_m, latitude, longitude and elevation_m. *)
Theorem attach_elevation_rows (points : list point) (coords3 : list vertex) :
  coords3 <> [] ->
  exists out,
    attach_elevation points coords3 = Ok out /\
    length out = length points /\
    forall i dist lon lat,
      nth_error points i = Some (dist, lon, lat) ->
      exists e,
        nth_error out i = Some (dist, lat, lon, e) /\
        field "distance_m" (dist, lat, lon, e) = Some dist /\
        field "latitude" (dist, lat, lon, e) = Some lat /\
        field "longitude" (dist, lat, lon, e) = Some lon /\
        field "elevation_m" (dist, lat, lon, e) = Some e.
Proof.
  intros Hne. eexists; split; [now apply attach_elevation_unfold|].
  split; [apply length_map|].
  intros i dist lon lat Hi.
  exists (nearest_elev coords3 (lon, lat)).
  rewrite nth_error_map, Hi. now repeat split.
Qed.

(** C10: [attach_elevation] keeps the distance of every point: the distance
    of the i-th row is the distance of the i-th point; and the elevation it
    attaches depends on the (lon, lat) of the point only: two sequences of
    points that differ in their distances alone get the same elevations. *)
Theorem attach_elevation_frame
    (pointsA pointsB : list point) (coords3 : list vertex) :
  coords3 <> [] ->
  map lonlat_of pointsA = map lonlat_of pointsB ->
  exists outA outB,
    attach_elevation pointsA coords3 = Ok outA /\
    attach_elevation pointsB coords3 = Ok outB /\
    map distance_m outA = map dist_of pointsA /\
    map distance_m outB = map dist_of pointsB /\
    map elevation_m outA = map elevation_m outB.
Proof.
  intros Hne Hll.
  exists (map (attach_row coords3) pointsA), (map (attach_row coords3) pointsB).
  split; [now apply attach_elevation_unfold|].
  split; [now apply attach_elevation_unfold|].
  assert (Hd : forall pts, map distance_m (map (attach_row coords3) pts) = map dist_of pts).
  { intros pts. rewrite map_map. apply map_ext. now intros [[d lon] lat]. }
  assert (He : forall pts, map elevation_m (map (attach_row coords3) pts)
                           = map (nearest_elev coords3) (map lonlat_of pts)).
  { intros pts. rewrite !map_map. apply map_ext. now intros [[d lon] lat]. }
  split; [apply Hd|]. split; [apply Hd|].
  now rewrite !He, Hll.
Qed.

Example scenario_rows :
  attach_elevation [(0, 0, 0); (50, 0, 1 # 2220); (100, 0, 1 # 1110)] scenario
  = Ok [(0, 0, 0, 10); (50, 1 # 2220, 0, 10); (100, 1 # 1110, 0, 20)].
Proof. vm_compute. reflexivity. Qed.

Example single_vertex_raises : Flat.interpolate_points single_vertex 50 = Raise ValueError.
Proof. reflexivity. Qed.

Example darwin_zone :
  get_utm_crs (130837806 # 1000000) (- (12463056 # 1000000)) = EPSG 32752.
Proof. reflexivity. Qed.

(** ** Instances of the statements above *)

Lemma interpolate_points_ignores_elevation_witness :
  map lonlat scenario = map lonlat [(0, 0, 725); (0, 1 # 1000, -(3))] /\
  Flat.interpolate_points scenario 50
  = Flat.interpolate_points [(0, 0, 725); (0, 1 # 1000, -(3))] 50.
Proof.
  split; [reflexivity|].
  apply (interpolate_points_ignores_elevation Flat.transform Flat.line_length
           Flat.line_interpolate scenario [(0, 0, 725); (0, 1 # 1000, -(3))] 50).
  reflexivity.
Defined.

Lemma attach_elevation_rows_witness :
  scenario <> [] /\
  exists out,
    attach_elevation [(50, 0, 1 # 2220)] scenario = Ok out /\
    length out = length [(50, 0, 1 # 2220) : point] /\
    forall i dist lon lat,
      nth_error [(50, 0, 1 # 2220)] i = Some (dist, lon, lat) ->
      exists e,
        nth_error out i = Some (dist, lat, lon, e) /\
        field "distance_m" (dist, lat, lon, e) = Some dist /\
        field "latitude" (dist, lat, lon, e) = Some lat /\
        field "longitude" (dist, lat, lon, e) = Some lon /\
        field "elevation_m" (dist, lat, lon, e) = Some e.
Proof.
  split; [discriminate|].
  apply (attach_elevation_rows [(50, 0, 1 # 2220)] scenario).
  discriminate.
Defined.

Lemma attach_elevation_frame_witness :
  scenario <> [] /\
  map lonlat_of [(50, 0, 1 # 2220)] = map lonlat_of [(7, 0, 1 # 2220)] /\
  exists outA outB,
    attach_elevation [(50, 0, 1 # 2220)] scenario = Ok outA /\
    attach_elevation [(7, 0, 1 # 2220)] scenario = Ok outB /\
    map distance_m outA = map dist_of [(50, 0, 1 # 2220)] /\
    map distance_m outB = map dist_of [(7, 0, 1 # 2220)] /\
    map elevation_m outA = map elevation_m outB.
Proof.
  split; [discriminate|]. split; [reflexivity|].
  apply (attach_elevation_frame [(50, 0, 1 # 2220)] [(7, 0, 1 # 2220)] scenario).
  - discriminate.
  - reflexivity.
Defined.

(** * Further properties *)

(** ** The projection selector: zones along the longitude *)

(** X2: the zone never decreases eastwards. *)
Theorem utm_zone_monotone (lon lon' : Q) :
  lon <= lon' -> (utm_zone lon <= utm_zone lon')%Z.
Proof.
  intros H. rewrite !utm_zone_floor.
  assert (Hq : (lon + 180) / 6 <= (lon' + 180) / 6).
  { apply Qle_shift_div_l; [lra|].
    assert (E : (lon + 180) / 6 * 6 == lon + 180) by (field; lra).
    lra. }
  apply Qfloor_resp_le in Hq. lia.
Qed.

(** X3: west of the antimeridian the code names its zone and hemisphere:
    two points get the same code only if they share both. *)
Theorem utm_epsg_injective (lon lat lon' lat' : Q) :
  -(180) <= lon -> lon < 180 -> -(180) <= lon' -> lon' < 180 ->
  utm_epsg lon lat = utm_epsg lon' lat' ->
  utm_zone lon = utm_zone lon' /\ Qlt_bool lat 0 = Qlt_bool lat' 0.
Proof.
  intros H1 H2 H3 H4.
  pose proof (utm_zone_range lon H1 H2) as Hz.
  pose proof (utm_zone_range lon' H3 H4) as Hz'.
  rewrite !utm_epsg_hemisphere.
  destruct (Qlt_bool lat 0), (Qlt_bool lat' 0); intros E; split;
    try reflexivity; lia.
Qed.


(** ** The elevation attacher: independence of the points *)

(** X9: every point is treated on its own: the rows of two sequences of
    points put end to end are the rows of the first followed by the rows of
    the second. *)
Theorem attach_elevation_app (ps qs : list point) (coords3 : list vertex) :
  coords3 <> [] ->
  exists rs ss,
    attach_elevation ps coords3 = Ok rs /\
    attach_elevation qs coords3 = Ok ss /\
    attach_elevation (ps ++ qs) coords3 = Ok (rs ++ ss).
Proof.
  intros Hne.
  exists (map (attach_row coords3) ps), (map (attach_row coords3) qs).
  rewrite !attach_elevation_unfold by assumption.
  now rewrite map_app.
Qed.

(** X10: the two steps compose: whenever [interpolate_points] returns,
    [attach_elevation] on its samples and the same geometry returns too, with
    one row per sample carrying the distance of the sample and the elevation
    of a vertex of the geometry. *)
Theorem interpolate_then_attach
    (transform : CRS -> CRS -> Q * Q -> Q * Q)
    (line_length : list (Q * Q) -> Q)
    (line_interpolate : list (Q * Q) -> Q -> Q * Q)
    (coords3 : list vertex) (interval_m : Q) (pts : list point) :
  interpolate_points transform line_length line_interpolate coords3 interval_m = Ok pts ->
  exists rows,
    attach_elevation pts coords3 = Ok rows /\
    length rows = length pts /\
    map distance_m rows = map dist_of pts /\
    Forall (fun r => exists v, In v coords3 /\ elevation_m r = elev v) rows.
Proof.
  intros Hok.
  assert (Hne : coords3 <> []) by (intros ->; discriminate).
  exists (map (attach_row coords3) pts).
  split; [now apply attach_elevation_unfold|].
  split; [apply length_map|].
  split.
  - rewrite map_map. apply map_ext. now intros [[d lon] lat].
  - apply Forall_map, Forall_forall. intros [[d lon] lat] _.
    destruct (nearest_vertex coords3 (lon, lat) Hne) as [w [Hw [He _]]].
    exists w. split; [now apply nth_error_In in Hw|exact He].
Qed.

(** ** The map and the CSV file *)

Lemma index_middle {A : Type} (xs : list A) :
  xs <> [] -> exists x, index xs (length xs / 2) = Ok x /\ In x xs.
Proof.
  intros Hne.
  assert (Hlt : (length xs / 2 < length xs)%nat).
  { apply Nat.div_lt; [|lia]. destruct xs; [congruence|simpl; lia]. }
  apply nth_error_Some in Hlt. unfold index.
  destruct (nth_error xs (length xs / 2)) as [x|] eqn:E; [|congruence].
  exists x. split; [reflexivity|]. now apply nth_error_In in E.
Qed.

Lemma add_markers (ws : list (string * Q * Q)) (m : folium_Map) :
  let m' := fold_left (fun m w => let '(name, lat, lon) := w in
                                  add_to (Marker (lat, lon) name) m) ws m in
  location m' = location m /\ zoom_start m' = zoom_start m /\
  layers m' = layers m ++ map waypoint_marker ws.
Proof.
  revert m; induction ws as [|[[name lat] lon] ws IH]; intros m; simpl.
  - now rewrite app_nil_r.
  - destruct (IH (add_to (Marker (lat, lon) name) m)) as [H1 [H2 H3]].
    rewrite H1, H2, H3. simpl. now rewrite <- app_assoc.
Qed.

(** X11: [create_map] raises exactly when there is no row, and then it has
    saved and printed nothing. *)
Theorem create_map_raises_iff (rows : list row) (out_html : string) :
  ((exists e, snd (create_map rows out_html) = Raise e) <-> rows = []) /\
  (rows = [] -> create_map rows out_html = ([], Raise IndexError)).
Proof.
  split; [split|].
  - intros [e He]. destruct rows as [|r rows]; [reflexivity|exfalso].
    destruct (index_middle (r :: rows)) as [x [Hx _]]; [discriminate|].
    unfold create_map, lift, io_bind in He. rewrite Hx in He. discriminate.
  - intros ->. now exists IndexError.
  - intros ->. reflexivity.
Qed.

Lemma create_map_nonempty (rows : list row) (out_html : string) :
  rows <> [] ->
  exists m mid,
    create_map rows out_html
    = ([SaveMap out_html m; Print ("Folium map saved to " ++ out_html)%string], Ok tt) /\
    nth_error rows (length rows / 2) = Some mid /\
    location m = (latitude mid, longitude mid) /\
    layers m = map waypoint_marker WAYPOINTS
               ++ [PolyLine (map (fun r => (latitude r, longitude r)) rows) "blue" 3 0.7].
Proof.
  intros Hne.
  destruct (index_middle rows Hne) as [mid [Hmid _]].
  unfold create_map, lift, io_bind. rewrite Hmid.
  set (m0 := {| location := (latitude mid, longitude mid); zoom_start := 5; layers := [] |}).
  destruct (add_markers WAYPOINTS m0) as [H1 [H2 H3]].
  exists (add_to (PolyLine (map (fun r => (latitude r, longitude r)) rows) "blue" 3 0.7)
            (fold_left (fun m w => let '(name, lat, lon) := w in
                                   add_to (Marker (lat, lon) name) m) WAYPOINTS m0)), mid.
  split; [reflexivity|].
  split.
  - unfold index in Hmid.
    destruct (nth_error rows (length rows / 2)); [congruence|discriminate].
  - unfold add_to in *; cbn [location layers]. rewrite H1, H3. now split.
Qed.

(** X12: for at least one row [create_map] saves one map and reports it;
    the map is centred on the position of the middle row, carries one marker
    per way-point at its [(lat, lon)] and then one line through the
    [(lat, lon)] of all rows in order. *)
Theorem create_map_saves (rows : list row) (out_html : string) :
  rows <> [] ->
  exists m mid,
    create_map rows out_html
    = ([SaveMap out_html m; Print ("Folium map saved to " ++ out_html)%string], Ok tt) /\
    nth_error rows (length rows / 2) = Some mid /\
    location m = (latitude mid, longitude mid) /\
    layers m = map waypoint_marker WAYPOINTS
               ++ [PolyLine (map (fun r => (latitude r, longitude r)) rows) "blue" 3 0.7].
Proof. apply create_map_nonempty. Qed.

(** X13: [write_csv] never raises; the file it writes starts with the
    header and holds one record per row in order, each component under the
    column of its name (for no row, the header alone). *)
Theorem write_csv_layout (path_str : string -> string) (rows : list row) (out_path : string) :
  exists recs,
    write_csv path_str rows out_path
    = ([WriteCsv out_path recs; Print ("CSV written to " ++ path_str out_path)%string], Ok tt) /\
    length recs = S (length rows) /\
    nth_error recs 0 = Some (map Text csv_header) /\
    forall i d lat lon e,
      nth_error rows i = Some (d, lat, lon, e) ->
      exists rec,
        nth_error recs (S i) = Some rec /\
        record_field "distance_m" rec = Some (Number d) /\
        record_field "latitude" rec = Some (Number lat) /\
        record_field "longitude" rec = Some (Number lon) /\
        record_field "elevation_m" rec = Some (Number e).
Proof.
  exists (csv_records rows).
  split; [reflexivity|].
  split; [unfold csv_records; simpl; now rewrite length_map|].
  split; [reflexivity|].
  intros i d lat lon e Hi.
  exists (map Number (csv_cells (d, lat, lon, e))).
  split; [|now repeat split].
  unfold csv_records. cbn [nth_error]. now rewrite nth_error_map, Hi.
Qed.

(** ** The whole run *)

Lemma io_bind_lift_ok {A B : Type} (a : A) (k : A -> io B) :
  io_bind (lift (Ok a)) k = k a.
Proof. unfold lift, io_bind. now destruct (k a). Qed.


Lemma interpolate_points_raises
    (transform : CRS -> CRS -> Q * Q -> Q * Q)
    (line_length : list (Q * Q) -> Q)
    (line_interpolate : list (Q * Q) -> Q -> Q * Q)
    (coords3 : list vertex) (interval_m : Q) :
  (length coords3 < 2)%nat \/ interval_m == 0 ->
  exists e,
    interpolate_points transform line_length line_interpolate coords3 interval_m = Raise e.
Proof.
  intros H.
  destruct coords3 as [|[[lon lat] e] [|v1 rest]].
  - now exists IndexError.
  - now exists ValueError.
  - destruct H as [H|H]; [simpl in H; lia|].
    exists ZeroDivisionError.
    unfold interpolate_points. cbn [index nth_error bind map LineString].
    now rewrite py_div_zero.
Qed.

Section PipelineFacts.

Variable transform : CRS -> CRS -> Q * Q -> Q * Q.
Variable line_length : list (Q * Q) -> Q.
Variable line_interpolate : list (Q * Q) -> Q -> Q * Q.
Variable directions : string -> Client.
Variable path_str : string -> string.

Local Abbreviation run := (main transform line_length line_interpolate directions path_str).
Local Abbreviation route key := (get_route request_coords (build_client directions key)).

(** X15: without an API key, or when the route cannot be read from the
    answer of the service, has fewer than two vertices, or the interval is
    zero, the run raises and has written and printed nothing. *)
Theorem main_fails_before_writing (args : Args) :
  truthy (api_key args) = false \/
  (exists key,
      api_key args = Some key /\
      forall coords3, route key = Ok coords3 ->
                      (length coords3 < 2)%nat \/ interval args == 0) ->
  exists e, run args = ([], Raise e).
Proof.
  intros [Hno|[key [Hkey Hroute]]].
  - exists ValueError. unfold main. now rewrite Hno.
  - unfold main. destruct (truthy (api_key args)) eqn:Ht; [|now exists ValueError].
    cbn [negb]. rewrite Hkey. fold request_coords.
    destruct (route key) as [coords3|e] eqn:Hr; [|now exists e].
    rewrite io_bind_lift_ok.
    destruct (interpolate_points_raises transform line_length line_interpolate
                coords3 (interval args) (Hroute coords3 eq_refl)) as [e He].
    exists e. now rewrite He.
Qed.

End PipelineFacts.

(** ** Instances of the further properties *)

Lemma utm_zone_monotone_witness :
  130.837806 <= 138.620964 /\ (utm_zone 130.837806 <= utm_zone 138.620964)%Z.
Proof.
  split; [unfold Qle; simpl; lia|].
  apply (utm_zone_monotone 130.837806 138.620964).
  unfold Qle; simpl; lia.
Defined.

Lemma utm_epsg_injective_witness :
  -(180) <= 3 /\ 3 < 180 /\ -(180) <= 5 /\ 5 < 180 /\
  utm_epsg 3 (-(1)) = utm_epsg 5 (-(2)) /\
  utm_zone 3 = utm_zone 5 /\ Qlt_bool (-(1)) 0 = Qlt_bool (-(2)) 0.
Proof.
  repeat (split; [first [reflexivity | unfold Qle; simpl; lia]|]).
  apply (utm_epsg_injective 3 (-(1)) 5 (-(2)));
    first [reflexivity | unfold Qle; simpl; lia].
Defined.

Lemma attach_elevation_app_witness :
  scenario <> [] /\
  exists rs ss,
    attach_elevation [(0, 0, 0)] scenario = Ok rs /\
    attach_elevation [(111, 0, 1 # 1000)] scenario = Ok ss /\
    attach_elevation ([(0, 0, 0)] ++ [(111, 0, 1 # 1000)]) scenario = Ok (rs ++ ss).
Proof.
  split; [discriminate|].
  apply (attach_elevation_app [(0, 0, 0)] [(111, 0, 1 # 1000)] scenario).
  discriminate.
Defined.

Lemma interpolate_then_attach_witness :
  Flat.interpolate_points scenario 50
  = Ok [(0, 0, 0); (50, 0, 1 # 2220); (100, 0, 1 # 1110)] /\
  exists rows,
    attach_elevation [(0, 0, 0); (50, 0, 1 # 2220); (100, 0, 1 # 1110)] scenario = Ok rows /\
    length rows = length [(0, 0, 0); (50, 0, 1 # 2220); (100, 0, 1 # 1110)] /\
    map distance_m rows = map dist_of [(0, 0, 0); (50, 0, 1 # 2220); (100, 0, 1 # 1110)] /\
    Forall (fun r => exists v, In v scenario /\ elevation_m r = elev v) rows.
Proof.
  split; [vm_compute; reflexivity|].
  apply (interpolate_then_attach Flat.transform Flat.line_length Flat.line_interpolate
           scenario 50).
  vm_compute; reflexivity.
Defined.

Lemma create_map_saves_witness :
  [(0, 1 # 2220, 0, 10)] <> ([] : list row) /\
  exists m mid,
    create_map [(0, 1 # 2220, 0, 10)] "route.html"
    = ([SaveMap "route.html" m;
        Print ("Folium map saved to " ++ "route.html")%string], Ok tt) /\
    nth_error [(0, 1 # 2220, 0, 10)] (length [(0, 1 # 2220, 0, 10)] / 2) = Some mid /\
    location m = (latitude mid, longitude mid) /\
    layers m = map waypoint_marker WAYPOINTS
               ++ [PolyLine (map (fun r => (latitude r, longitude r))
                                 [(0, 1 # 2220, 0, 10)]) "blue" 3 0.7].
Proof.
  split; [discriminate|].
  apply (create_map_saves [(0, 1 # 2220, 0, 10)] "route.html").
  discriminate.
Defined.

Lemma main_fails_before_writing_witness :
  (truthy (api_key (demo_args 0)) = false \/
   (exists key,
       api_key (demo_args 0) = Some key /\
       forall coords3,
         get_route request_coords (build_client (answer scenario) key) = Ok coords3 ->
         (length coords3 < 2)%nat \/ interval (demo_args 0) == 0)) /\
  exists e, flat_main scenario (demo_args 0) = ([], Raise e).
Proof.
  assert (H : truthy (api_key (demo_args 0)) = false \/
              (exists key,
                  api_key (demo_args 0) = Some key /\
                  forall coords3,
                    get_route request_coords (build_client (answer scenario) key) = Ok coords3 ->
                    (length coords3 < 2)%nat \/ interval (demo_args 0) == 0)).
  { right. exists "key"%string. split; [reflexivity|]. intros coords3 _. right. reflexivity. }
  split; [exact H|].
  apply (main_fails_before_writing Flat.transform Flat.line_length Flat.line_interpolate
           (answer scenario) (fun p => p) (demo_args 0)).
  exact H.
Defined.


(** * The resampler and the attacher on binary64 floats: properties *)

Lemma float_of_int_0 : IEEE.float_of_int 0 = 0%float.
Proof. reflexivity. Qed.

(** Zero times a finite float is a zero. *)
Lemma mul_zero_finite (x : float) :
  IEEE.is_finite x = true -> IEEE.is_zero (0 * x)%float = true.
Proof.
  unfold IEEE.is_finite, IEEE.is_zero. intros H.
  rewrite eqb_spec, mul_spec.
  destruct (Prim2SF x) as [s|s| |s m e]; try discriminate; now destruct s.
Qed.


Section IEEEFacts.

Variable CRS_from_epsg : Z -> result CRS.
Variable Transformer_from_crs : CRS -> CRS -> result (float * float -> float * float).
Variable line : Type.
Variable LineString : list (float * float) -> result line.
Variable line_length : line -> float.
Variable line_interpolate : line -> float -> float * float.

Local Abbreviation resample :=
  (IEEE.interpolate_points CRS_from_epsg Transformer_from_crs line LineString
     line_length line_interpolate).
Local Abbreviation ready :=
  (IEEE.prepared CRS_from_epsg Transformer_from_crs line LineString).
Local Abbreviation sample_at := (IEEE.sample line line_interpolate).

(** Once the steps before the division went through, the call does what
    [num_points] and the loop do. *)
Lemma ieee_interpolate_points_unfold coords3 v0 to_utm to_wgs ln interval_m :
  ready coords3 v0 to_utm to_wgs ln ->
  resample coords3 interval_m
  = (n <- IEEE.num_points (line_length ln) interval_m ;;
     Ok (map (sample_at to_wgs ln interval_m) (range n))).
Proof.
  intros [rest [crs [-> [Hcrs [Hu [Hw Hl]]]]]].
  destruct v0 as [[lon lat] e]. simpl in Hcrs.
  unfold IEEE.interpolate_points. cbn [index nth_error bind].
  rewrite Hcrs. cbn [bind]. rewrite Hu. cbn [bind]. rewrite Hw. cbn [bind].
  rewrite Hl. cbn [bind].
  destruct (IEEE.num_points (line_length ln) interval_m) as [n|e']; [|reflexivity].
  cbn [bind]. now rewrite fold_left_append.
Qed.

Lemma ieee_num_points_floor (total_len interval_m : float) (k : Z) :
  IEEE.is_zero interval_m = false ->
  IEEE.math_floor (total_len / interval_m) = Ok k ->
  IEEE.num_points total_len interval_m = Ok (k + 1)%Z.
Proof.
  intros Hz Hk. unfold IEEE.num_points, IEEE.py_div. rewrite Hz. cbn [bind].
  now rewrite Hk.
Qed.


(** The sample of index 0: at a zero distance, at the first vertex of the
    curve brought back by the inverse transform. *)
Lemma ieee_sample_start to_wgs ln interval_m (first : float * float) :
  IEEE.is_finite interval_m = true ->
  (forall d, IEEE.is_zero d = true -> line_interpolate ln d = first) ->
  exists d,
    IEEE.is_zero d = true /\
    sample_at to_wgs ln interval_m 0 = (d, fst (to_wgs first), snd (to_wgs first)).
Proof.
  intros Hfin Hstart.
  exists (0 * interval_m)%float.
  split; [now apply mul_zero_finite|].
  unfold IEEE.sample. rewrite float_of_int_0.
  rewrite Hstart by now apply mul_zero_finite.
  now destruct (to_wgs first).
Qed.



(** C5, amended: when the steps before the division went through, the
    interval is finite and the float quotient [total_len / interval_m] is
    finite and not negative, the first sample has a zero distance, and its
    coordinates are those of the first input vertex after the forward and the
    inverse transform. *)
Theorem ieee_interpolate_points_first coords3 v0 to_utm to_wgs ln interval_m k :
  ready coords3 v0 to_utm to_wgs ln ->
  IEEE.is_zero interval_m = false ->
  IEEE.is_finite interval_m = true ->
  IEEE.math_floor (line_length ln / interval_m) = Ok k ->
  (0 <= k)%Z ->
  (forall d, IEEE.is_zero d = true ->
             line_interpolate ln d = to_utm (IEEE.lonlat v0)) ->
  exists pts d lon lat,
    resample coords3 interval_m = Ok pts /\
    hd_error pts = Some (d, lon, lat) /\
    IEEE.is_zero d = true /\
    (lon, lat) = to_wgs (to_utm (IEEE.lonlat v0)).
Proof.
  intros Hready Hz Hfin Hk Hk0 Hstart.
  rewrite (ieee_interpolate_points_unfold _ _ _ _ _ interval_m Hready).
  rewrite (ieee_num_points_floor _ _ k Hz Hk). cbn [bind].
  destruct (ieee_sample_start to_wgs ln interval_m _ Hfin Hstart) as [d [Hd Hs]].
  eexists; exists d, (fst (to_wgs (to_utm (IEEE.lonlat v0)))),
                    (snd (to_wgs (to_utm (IEEE.lonlat v0)))).
  split; [reflexivity|].
  rewrite (range_pos k Hk0). cbn [map hd_error]. rewrite Hs.
  split; [reflexivity|]. split; [assumption|].
  now destruct (to_wgs (to_utm (IEEE.lonlat v0))).
Qed.



End IEEEFacts.


(** ** Instances on the stand-in libraries *)

Lemma stub_prepared :
  IEEE.prepared IEEE.stub_CRS_from_epsg IEEE.stub_Transformer (list (float * float))
    IEEE.stub_LineString IEEE.scenario (0, 0, 10)%float (fun p => p) (fun p => p)
    (map IEEE.lonlat IEEE.scenario).
Proof.
  exists [(0, 0.001, 20)%float], (EPSG 32631).
  repeat split; reflexivity.
Qed.



Lemma ieee_interpolate_points_first_witness :
  IEEE.prepared IEEE.stub_CRS_from_epsg IEEE.stub_Transformer (list (float * float))
    IEEE.stub_LineString IEEE.scenario (0, 0, 10)%float (fun p => p) (fun p => p)
    (map IEEE.lonlat IEEE.scenario) /\
  IEEE.is_zero 50 = false /\
  IEEE.is_finite 50 = true /\
  IEEE.math_floor (IEEE.scenario_length / 50) = Ok 2%Z /\
  (0 <= 2)%Z /\
  (forall d, IEEE.is_zero d = true ->
             IEEE.stub_interpolate (map IEEE.lonlat IEEE.scenario) d
             = IEEE.lonlat (0, 0, 10)%float) /\
  exists pts d lon lat,
    IEEE.run_interpolate IEEE.scenario_length IEEE.scenario 50 = Ok pts /\
    hd_error pts = Some (d, lon, lat) /\
    IEEE.is_zero d = true /\
    (lon, lat) = IEEE.lonlat (0, 0, 10)%float.
Proof.
  split; [exact stub_prepared|].
  split; [reflexivity|]. split; [reflexivity|]. split; [reflexivity|].
  split; [lia|]. split; [reflexivity|].
  apply (ieee_interpolate_points_first IEEE.stub_CRS_from_epsg IEEE.stub_Transformer
           (list (float * float)) IEEE.stub_LineString (fun _ => IEEE.scenario_length)
           IEEE.stub_interpolate IEEE.scenario (0, 0, 10)%float (fun p => p) (fun p => p)
           (map IEEE.lonlat IEEE.scenario) 50 2 stub_prepared);
    first [reflexivity | lia].
Defined.






(** ** Inputs on which the design's statements fail *)



(** C5 as stated fails: the interval 5e-324 is positive and finite, yet
    there is no first sample: the quotient overflows and [math.floor]
    raises. *)
Lemma no_first_sample_on_overflow :
  (0 <? 5e-324)%float = true /\
  IEEE.is_finite 5e-324 = true /\
  IEEE.run_interpolate IEEE.scenario_length IEEE.scenario 5e-324 = Raise OverflowError.
Proof. repeat split; vm_compute; reflexivity. Qed.



